(** * Verification of the translation agent of [lesson5/lesson5_7.py]

    The development embeds the class [TranslationAgent] (its constructor and
    the methods [translate_text], [get_translation_history] and
    [clear_history]) and proves the properties of its prompt construction and
    of its in-memory history.

    Python strings are sequences of Unicode code points: [len], slicing and
    [strip] all count code points, so a [str] is a list of code points here.
    The literals of the program are written as UTF-8 text and decoded once. *)

From Stdlib Require Import String Ascii DecimalString.
From Stdlib Require Import List NArith Arith Bool Lia.
Import ListNotations.

(** ** Python [str] *)

Module Py.

Definition char := N.
Definition str := list char.

Definition char_eqb (a b : char) : bool := N.eqb a b.

Fixpoint str_eqb (a b : str) : bool :=
  match a, b with
  | [], [] => true
  | x :: a', y :: b' => char_eqb x y && str_eqb a' b'
  | _, _ => false
  end.

(** Continuation byte of a UTF-8 sequence: its low six bits. *)
Definition cont (b : N) : N := N.land b 63.

(** Decoder for the UTF-8 text of the literals. *)
Fixpoint utf8 (bs : list N) : str :=
  match bs with
  | [] => []
  | b0 :: r0 =>
      if N.ltb b0 128 then b0 :: utf8 r0
      else if N.ltb b0 224 then
        match r0 with
        | b1 :: r1 => (N.land b0 31 * 64 + cont b1)%N :: utf8 r1
        | _ => []
        end
      else if N.ltb b0 240 then
        match r0 with
        | b1 :: b2 :: r2 =>
            (N.land b0 15 * 4096 + cont b1 * 64 + cont b2)%N :: utf8 r2
        | _ => []
        end
      else
        match r0 with
        | b1 :: b2 :: b3 :: r3 =>
            (N.land b0 7 * 262144 + cont b1 * 4096 + cont b2 * 64 + cont b3)%N
              :: utf8 r3
        | _ => []
        end
  end.

Definition lit (s : string) : str :=
  utf8 (map N_of_ascii (list_ascii_of_string s)).

(** [str(i)] for a non-negative integer. *)
Definition str_of_nat (n : nat) : str :=
  lit (NilEmpty.string_of_uint (Nat.to_uint n)).

(** [Py_UNICODE_ISSPACE]: the code points [str.strip()] removes. *)
Definition isspace (c : char) : bool :=
  ((9 <=? c) && (c <=? 13) || (28 <=? c) && (c <=? 32)
   || (c =? 133) || (c =? 160) || (c =? 5760)
   || (8192 <=? c) && (c <=? 8202)
   || (c =? 8232) || (c =? 8233) || (c =? 8239) || (c =? 8287)
   || (c =? 12288))%N.

Fixpoint lstrip (s : str) : str :=
  match s with
  | c :: s' => if isspace c then lstrip s' else s
  | [] => []
  end.

Definition rstrip (s : str) : str := rev (lstrip (rev s)).

(** [s.strip()] *)
Definition strip (s : str) : str := rstrip (lstrip s).

(** Truth value of a string: [not s] holds of the empty string only. *)
Definition falsy (s : str) : bool :=
  match s with [] => true | _ :: _ => false end.

(** [needle in hay] *)
Fixpoint startswith (p s : str) : bool :=
  match p, s with
  | [], _ => true
  | x :: p', y :: s' => char_eqb x y && startswith p' s'
  | _ :: _, [] => false
  end.

Fixpoint contains (needle hay : str) : bool :=
  startswith needle hay
  || match hay with
     | [] => false
     | _ :: hay' => contains needle hay'
     end.

(** [s[:n]] for [n >= 0] *)
Definition slice_to (n : nat) (s : str) : str := firstn n s.

(** [l[-n:]] for [n > 0]: the last [n] elements, all of [l] when it is
    shorter. *)
Definition last_n {A : Type} (n : nat) (l : list A) : list A :=
  skipn (length l - n) l.

End Py.

Definition pystr := Py.str.

Definition nl : pystr := [10%N].

(** ** Exceptions and the small state-and-exception monad of the methods

    An [Exception] value stands for an instance of Python's [Exception]
    class, the ones [except Exception] catches; [exc_str] is what [str(e)]
    gives. *)

Record Exception := { exc_type : pystr; exc_str : pystr }.

Inductive outcome (A : Type) : Type :=
| Returns (a : A)
| Raises (e : Exception).

Arguments Returns {A} a.
Arguments Raises {A} e.

(** ** The agent *)

(** The dictionary appended to [translation_history]. *)
Record TranslationRecord := {
  rec_source_text : pystr;
  rec_source_language : pystr;
  rec_target_language : pystr;
  rec_domain : pystr;
  rec_tone_style : pystr;
  rec_translation : pystr;
  rec_prompt : pystr
}.

(** The dictionary [translate_text] returns. *)
Record Result := {
  translation : pystr;
  prompt : pystr;
  status : pystr
}.

(** The attributes of a [TranslationAgent]. [self.model] is the external
    language model: what it answers is a parameter of the development
    ([model_invoke] below), and [model_calls] keeps the prompts it has been
    sent, oldest first, so that contacting the model is observable. *)
Record TranslationAgent := {
  model_calls : list pystr;
  translation_history : list TranslationRecord;
  languages : list (pystr * pystr);
  domains : list pystr;
  tone_styles : list pystr
}.

(** [d.get(k)] on a dictionary kept as an association list. *)
Fixpoint dict_get (d : list (pystr * pystr)) (k : pystr) : option pystr :=
  match d with
  | [] => None
  | (k', v) :: d' => if Py.str_eqb k k' then Some v else dict_get d' k
  end.

(** The tables of [TranslationAgent.__init__]. *)
Definition init_languages : list (pystr * pystr) :=
  Eval vm_compute in
    [ (Py.lit "繁體中文", Py.lit "繁體中文");
      (Py.lit "简体中文", Py.lit "简体中文");
      (Py.lit "English", Py.lit "英文");
      (Py.lit "日本語", Py.lit "日文");
      (Py.lit "한국어", Py.lit "韓文");
      (Py.lit "Français", Py.lit "法文");
      (Py.lit "Deutsch", Py.lit "德文");
      (Py.lit "Español", Py.lit "西班牙文");
      (Py.lit "Italiano", Py.lit "義大利文");
      (Py.lit "Português", Py.lit "葡萄牙文") ].

Definition init_domains : list pystr :=
  Eval vm_compute in
    map Py.lit
      [ "一般"; "商業"; "科技"; "醫學"; "法律"; "學術"; "文學";
        "新聞"; "行銷"; "教育"; "工程"; "金融"; "旅遊"; "藝術" ]%string.

Definition init_tone_styles : list pystr :=
  Eval vm_compute in
    map Py.lit
      [ "正式"; "友善"; "專業"; "輕鬆"; "學術"; "商務"; "創意"; "簡潔" ]%string.

(** [TranslationAgent.__init__] *)
Definition init : TranslationAgent := {|
  model_calls := [];
  translation_history := [];
  languages := init_languages;
  domains := init_domains;
  tone_styles := init_tone_styles
|}.

(** Methods run in a state-and-exception monad over the agent: the state
    survives a raised exception, as the attributes of [self] do. *)
Definition M (A : Type) : Type :=
  TranslationAgent -> outcome A * TranslationAgent.

Definition ret {A : Type} (a : A) : M A := fun self => (Returns a, self).

Definition bind {A B : Type} (m : M A) (k : A -> M B) : M B :=
  fun self =>
    match m self with
    | (Returns a, self') => k a self'
    | (Raises e, self') => (Raises e, self')
    end.

(** [try: body except Exception as e: handler e] *)
Definition try_except {A : Type} (body : M A) (handler : Exception -> M A)
  : M A :=
  fun self =>
    match body self with
    | (Returns a, self') => (Returns a, self')
    | (Raises e, self') => handler e self'
    end.

(** A pure computation that may raise. *)
Definition lift {A : Type} (o : outcome A) : M A := fun self => (o, self).

Notation "x <- m ;; k" := (bind m (fun x => k))
  (at level 61, m at next level, right associativity).
Notation "m ;;; k" := (bind m (fun _ => k))
  (at level 61, right associativity).

(** ** The prompt template *)

Definition LBRACE : Py.char := 123%N.
Definition RBRACE : Py.char := 125%N.
Definition LBRACKET : Py.char := 91%N.
Definition COLON : Py.char := 58%N.
Definition BANG : Py.char := 33%N.

(** No brace character occurs in [s]. *)
Definition brace_free (s : pystr) : bool :=
  forallb (fun c => negb (Py.char_eqb c LBRACE || Py.char_eqb c RBRACE)) s.

Definition text_name : pystr := Eval vm_compute in Py.lit "text".
Definition text_slot : pystr := Eval vm_compute in Py.lit "{text}".

(** The text of the f-string of [translate_text] with [slot] where the
    f-string has [{{text}}]; each [{name}] of the f-string is the value of
    that parameter. *)
Definition five_point (source_language target_language domain tone_style
                       slot : pystr) : pystr :=
  nl ++ Py.lit "你是一位專業的" ++ target_language
     ++ Py.lit "翻譯家，專精於" ++ domain
     ++ Py.lit "領域，擅長" ++ tone_style ++ Py.lit "風格的翻譯。"
  ++ nl ++ Py.lit "請將以下" ++ source_language
     ++ Py.lit "文本翻譯成" ++ target_language ++ Py.lit "，並確保："
  ++ nl ++ Py.lit "1. 保持原文的語氣和風格（" ++ tone_style ++ Py.lit "）"
  ++ nl ++ Py.lit "2. 使用" ++ domain ++ Py.lit "領域的專業術語"
  ++ nl ++ Py.lit "3. 符合" ++ target_language ++ Py.lit "的語言習慣"
  ++ nl ++ Py.lit "4. 保持原文的語義完整性"
  ++ nl ++ Py.lit "5. 提供自然流暢的翻譯結果"
  ++ nl
  ++ nl ++ source_language ++ Py.lit "文本：" ++ slot
  ++ nl ++ target_language ++ Py.lit "翻譯："
  ++ nl.

(** [complex_template]: evaluating the f-string turns [{{text}}] into the
    six characters [{text}]. *)
Definition complex_template (source_language target_language domain
                             tone_style : pystr) : pystr :=
  five_point source_language target_language domain tone_style text_slot.

(** *** LangChain's [ChatPromptTemplate] with the default f-string format

    [ChatPromptTemplate.from_template(t).format(text=s)] formats [t] with
    Python's [string.Formatter] and returns the single human message as
    ["Human: " + content].  The scanner below follows the formatter on
    templates made of literal text, the escapes [{{] and [}}], and the plain
    replacement field [{text}]; it gives [None] on every other template
    (another field name, a conversion, a format specification, an attribute
    or index lookup, an unbalanced brace). *)

Inductive scan_state :=
| Plain                       (* in literal text *)
| Opened                      (* just read a left brace *)
| Closed                      (* just read a right brace *)
| Named (name_rev : pystr).   (* inside a field name, read so far reversed *)

Fixpoint vformat (text : pystr) (st : scan_state) (t : pystr)
  : option pystr :=
  match t with
  | [] => match st with Plain => Some [] | _ => None end
  | c :: t' =>
      match st with
      | Plain =>
          if Py.char_eqb c LBRACE then vformat text Opened t'
          else if Py.char_eqb c RBRACE then vformat text Closed t'
          else option_map (cons c) (vformat text Plain t')
      | Opened =>
          if Py.char_eqb c LBRACE
          then option_map (cons LBRACE) (vformat text Plain t')
          else if Py.char_eqb c RBRACE || Py.char_eqb c LBRACKET
                  || Py.char_eqb c COLON || Py.char_eqb c BANG
          then None
          else vformat text (Named [c]) t'
      | Closed =>
          if Py.char_eqb c RBRACE
          then option_map (cons RBRACE) (vformat text Plain t')
          else None
      | Named name_rev =>
          if Py.char_eqb c RBRACE then
            if Py.str_eqb (rev name_rev) text_name
            then option_map (app text) (vformat text Plain t')
            else None
          else if Py.char_eqb c LBRACE || Py.char_eqb c LBRACKET
                  || Py.char_eqb c COLON || Py.char_eqb c BANG
          then None
          else vformat text (Named (c :: name_rev)) t'
      end
  end.

Record ChatPromptTemplate := { template : pystr }.

Definition from_template (t : pystr) : ChatPromptTemplate :=
  {| template := t |}.

(** The model's answer: a [str], or another object with the text [str()]
    gives for it. *)
Inductive response :=
| Str (s : pystr)
| Obj (as_str : pystr).

(** [response if isinstance(response, str) else str(response)] *)
Definition str_of_response (r : response) : pystr :=
  match r with
  | Str s => s
  | Obj as_str => as_str
  end.

Definition human_prefix : pystr := Eval vm_compute in Py.lit "Human: ".
Definition msg_empty_input : pystr :=
  Eval vm_compute in Py.lit "請輸入要翻譯的文本".
Definition msg_error_prefix : pystr :=
  Eval vm_compute in Py.lit "翻譯過程中發生錯誤: ".
Definition status_error : pystr := Eval vm_compute in Py.lit "error".
Definition status_success : pystr := Eval vm_compute in Py.lit "success".
Definition msg_no_history : pystr := Eval vm_compute in Py.lit "尚無翻譯記錄".
Definition msg_cleared : pystr := Eval vm_compute in Py.lit "✅ 翻譯歷史已清除".
Definition ellipsis : pystr := Eval vm_compute in Py.lit "...".

Section Agent.

(** What the rest of Python's formatting and of LangChain's validation does
    with a template outside the fragment of [vformat] (in practice it raises
    [KeyError] or [ValueError], or applies a conversion): the development
    holds for every such behaviour. *)
Variable format_other : pystr -> pystr -> outcome pystr.

(** The model collaborator: its answer to a prompt, which may depend on the
    prompts it was sent before, or the exception it raises. *)
Variable model_invoke : list pystr -> pystr -> outcome response.

(** [chat_prompt_template.format(text=...)]; a template the library rejects
    is reported here, [from_template] and [format] being in the same [try]. *)
Definition format (p : ChatPromptTemplate) (text : pystr) : outcome pystr :=
  match vformat text Plain (template p) with
  | Some content => Returns (human_prefix ++ content)
  | None =>
      match format_other (template p) text with
      | Returns content => Returns (human_prefix ++ content)
      | Raises e => Raises e
      end
  end.

(** [self.model.invoke(formatted_prompt)] *)
Definition invoke (formatted_prompt : pystr) : M response :=
  fun self =>
    (model_invoke (model_calls self) formatted_prompt,
     {| model_calls := model_calls self ++ [formatted_prompt];
        translation_history := translation_history self;
        languages := languages self;
        domains := domains self;
        tone_styles := tone_styles self |}).

(** [self.translation_history.append(record)] *)
Definition history_append (record : TranslationRecord) : M unit :=
  fun self =>
    (Returns tt,
     {| model_calls := model_calls self;
        translation_history := translation_history self ++ [record];
        languages := languages self;
        domains := domains self;
        tone_styles := tone_styles self |}).

(** [translate_text] *)
Definition translate_text (source_text source_language target_language
                           domain tone_style : pystr) : M Result :=
  if Py.falsy (Py.strip source_text) then
    ret {| translation := msg_empty_input;
           prompt := [];
           status := status_error |}
  else
    try_except
      (let chat_prompt_template :=
         from_template
           (complex_template source_language target_language domain
              tone_style) in
       formatted_prompt <- lift (format chat_prompt_template source_text) ;;
       response <- invoke formatted_prompt ;;
       let translation_result := str_of_response response in
       let translation_record :=
         {| rec_source_text := source_text;
            rec_source_language := source_language;
            rec_target_language := target_language;
            rec_domain := domain;
            rec_tone_style := tone_style;
            rec_translation := translation_result;
            rec_prompt := formatted_prompt |} in
       history_append translation_record ;;;
       ret {| translation := translation_result;
              prompt := formatted_prompt;
              status := status_success |})
      (fun e =>
         ret {| translation := msg_error_prefix ++ exc_str e;
                prompt := [];
                status := status_error |}).

(** [s[:n]] followed by ['...' if len(s) > n else '']. *)
Definition shown (n : nat) (s : pystr) : pystr :=
  Py.slice_to n s ++ (if n <? length s then ellipsis else []).

(** [for i, record in enumerate(records, i): history_text += ...], the four
    augmented assignments of the loop body in turn. *)
Fixpoint history_loop (history_text : pystr) (i : nat)
                      (records : list TranslationRecord) : pystr :=
  match records with
  | [] => history_text
  | record :: records' =>
      let history_text :=
        history_text
        ++ (Py.lit "## " ++ Py.str_of_nat i ++ Py.lit ". "
              ++ rec_source_language record ++ Py.lit " → "
              ++ rec_target_language record ++ nl) in
      let history_text :=
        history_text
        ++ (Py.lit "**領域**: " ++ rec_domain record
              ++ Py.lit " | **風格**: " ++ rec_tone_style record ++ nl) in
      let history_text :=
        history_text
        ++ (Py.lit "**原文**: " ++ shown 100 (rec_source_text record) ++ nl) in
      let history_text :=
        history_text
        ++ (Py.lit "**譯文**: " ++ shown 150 (rec_translation record)
              ++ nl ++ nl) in
      history_loop history_text (S i) records'
  end.

Definition history_header : pystr :=
  Py.lit "# 📚 翻譯歷史記錄" ++ nl ++ nl.

(** [get_translation_history] *)
Definition get_translation_history : M pystr :=
  fun self =>
    match translation_history self with
    | [] => (Returns msg_no_history, self)
    | _ :: _ =>
        (Returns
           (history_loop history_header 1
              (Py.last_n 10 (translation_history self))),
         self)
    end.

(** [clear_history] *)
Definition clear_history : M pystr :=
  fun self =>
    (Returns msg_cleared,
     {| model_calls := model_calls self;
        translation_history := [];
        languages := languages self;
        domains := domains self;
        tone_styles := tone_styles self |}).

(** *** Sequences of calls *)

Inductive call :=
| TranslateText (source_text source_language target_language domain
                 tone_style : pystr)
| GetTranslationHistory
| ClearHistory.

Definition after {A : Type} (m : M A) (self : TranslationAgent)
  : TranslationAgent := snd (m self).

Definition step (self : TranslationAgent) (c : call) : TranslationAgent :=
  match c with
  | TranslateText source_text source_language target_language domain
      tone_style =>
      after (translate_text source_text source_language target_language
               domain tone_style) self
  | GetTranslationHistory => after get_translation_history self
  | ClearHistory => after clear_history self
  end.

Definition run (self : TranslationAgent) (calls : list call)
  : TranslationAgent := fold_left step calls self.

End Agent.

(** The result of the [except] branch, and the two updates of the agent
    [translate_text] makes. *)
Definition error_result (e : Exception) : Result :=
  {| translation := msg_error_prefix ++ exc_str e;
     prompt := [];
     status := status_error |}.

Definition called (self : TranslationAgent) (p : pystr) : TranslationAgent :=
  {| model_calls := model_calls self ++ [p];
     translation_history := translation_history self;
     languages := languages self;
     domains := domains self;
     tone_styles := tone_styles self |}.

Definition recorded (self : TranslationAgent) (r : TranslationRecord)
  : TranslationAgent :=
  {| model_calls := model_calls self;
     translation_history := translation_history self ++ [r];
     languages := languages self;
     domains := domains self;
     tone_styles := tone_styles self |}.

(** The agent [self] with other catalog tables. *)
Definition with_catalogs (self : TranslationAgent)
    (langs : list (pystr * pystr)) (doms tones : list pystr)
  : TranslationAgent :=
  {| model_calls := model_calls self;
     translation_history := translation_history self;
     languages := langs;
     domains := doms;
     tone_styles := tones |}.

(** *** The spec's wording, for comparison with the code *)

(** Following the spec's words: a text cut to [limit] characters, with an
    ellipsis appended if and only if it was longer. *)
Definition truncated (limit : nat) (s : pystr) : pystr :=
  if length s <=? limit then s else firstn limit s ++ ellipsis.

(** Following the spec's words: the label a lookup table maps a display
    label to (the display label itself where the table has no entry). *)
Definition mapped_label (catalog : list (pystr * pystr)) (label : pystr)
  : pystr :=
  match dict_get catalog label with
  | Some v => v
  | None => label
  end.

(** [enumerate(l, 1)] *)
Definition numbered {A : Type} (l : list A) : list (nat * A) :=
  combine (seq 1 (length l)) l.

(** Following the spec's words: what the view shows of the record numbered
    [i]: its languages, domain and tone, its source text cut to 100
    characters and its output text cut to 150. *)
Definition view_entry (entry : nat * TranslationRecord) : pystr :=
  let (i, record) := entry in
  (Py.lit "## " ++ Py.str_of_nat i ++ Py.lit ". "
     ++ rec_source_language record ++ Py.lit " → "
     ++ rec_target_language record ++ nl)
  ++ (Py.lit "**領域**: " ++ rec_domain record ++ Py.lit " | **風格**: "
        ++ rec_tone_style record ++ nl)
  ++ (Py.lit "**原文**: " ++ truncated 100 (rec_source_text record) ++ nl)
  ++ (Py.lit "**譯文**: " ++ truncated 150 (rec_translation record)
        ++ nl ++ nl).

Definition is_clear (c : call) : bool :=
  match c with
  | ClearHistory => true
  | _ => false
  end.

(** *** Stand-ins for the collaborators *)

(** A model that echoes the prompt back. *)
Definition echo_model : list pystr -> pystr -> outcome response :=
  fun _ formatted_prompt => Returns (Str formatted_prompt).

Definition connection_error : Exception :=
  {| exc_type := Py.lit "ConnectionError";
     exc_str := Py.lit "connection refused" |}.

(** A model that is down. *)
Definition failing_model : list pystr -> pystr -> outcome response :=
  fun _ _ => Raises connection_error.

Definition key_error : Exception :=
  {| exc_type := Py.lit "KeyError"; exc_str := Py.lit "'x'" |}.

(** A formatter that rejects every template outside the fragment. *)
Definition strict_formatter : pystr -> pystr -> outcome pystr :=
  fun _ _ => Raises key_error.

Definition English : pystr := Eval vm_compute in Py.lit "English".
Definition zh_TW : pystr := Eval vm_compute in Py.lit "繁體中文".
Definition general : pystr := Eval vm_compute in Py.lit "一般".
Definition professional : pystr := Eval vm_compute in Py.lit "專業".
Definition hello_world : pystr := Eval vm_compute in Py.lit "Hello world".

(** A space, a tab, a newline and an ideographic space. *)
Definition blank_text : pystr := [32; 9; 10; 12288]%N.

Definition sample_record (n : nat) : TranslationRecord :=
  {| rec_source_text := repeat 97%N n;
     rec_source_language := English;
     rec_target_language := zh_TW;
     rec_domain := general;
     rec_tone_style := professional;
     rec_translation := repeat 98%N (n + 60);
     rec_prompt := hello_world |}.

Definition agent_with (h : list TranslationRecord) : TranslationAgent :=
  {| model_calls := [];
     translation_history := h;
     languages := init_languages;
     domains := init_domains;
     tone_styles := init_tone_styles |}.

(** ** The interface: the handlers of [create_translation_interface]

    The handlers are closures over the module-level [translation_agent]; a
    button's [click(fn, inputs, outputs)] calls [fn] on the current values of
    the input widgets and writes what it returns to the output widgets. *)

Module UI.

(** The agent and the values of the widgets the handlers read or write. *)
Record state := {
  agent : TranslationAgent;
  source_lang : pystr;
  target_lang : pystr;
  domain : pystr;
  tone_style : pystr;
  source_text : pystr;
  translation_output : pystr;
  prompt_output : pystr;
  history_output : pystr
}.

Definition set_agent (a : TranslationAgent) (st : state) : state :=
  {| agent := a;
     source_lang := source_lang st;
     target_lang := target_lang st;
     domain := domain st;
     tone_style := tone_style st;
     source_text := source_text st;
     translation_output := translation_output st;
     prompt_output := prompt_output st;
     history_output := history_output st |}.

Definition set_selectors (sl tl d ts : pystr) (st : state) : state :=
  {| agent := agent st;
     source_lang := sl;
     target_lang := tl;
     domain := d;
     tone_style := ts;
     source_text := source_text st;
     translation_output := translation_output st;
     prompt_output := prompt_output st;
     history_output := history_output st |}.

Definition set_source_text (s : pystr) (st : state) : state :=
  {| agent := agent st;
     source_lang := source_lang st;
     target_lang := target_lang st;
     domain := domain st;
     tone_style := tone_style st;
     source_text := s;
     translation_output := translation_output st;
     prompt_output := prompt_output st;
     history_output := history_output st |}.

Definition set_outputs (t p : pystr) (st : state) : state :=
  {| agent := agent st;
     source_lang := source_lang st;
     target_lang := target_lang st;
     domain := domain st;
     tone_style := tone_style st;
     source_text := source_text st;
     translation_output := t;
     prompt_output := p;
     history_output := history_output st |}.

Definition set_history_output (h : pystr) (st : state) : state :=
  {| agent := agent st;
     source_lang := source_lang st;
     target_lang := target_lang st;
     domain := domain st;
     tone_style := tone_style st;
     source_text := source_text st;
     translation_output := translation_output st;
     prompt_output := prompt_output st;
     history_output := h |}.

Section Handlers.

Variable format_other : pystr -> pystr -> outcome pystr.
Variable model_invoke : list pystr -> pystr -> outcome response.

(** [perform_translation] *)
Definition perform_translation (source_text source_lang target_lang domain
                                tone_style : pystr) : M (pystr * pystr) :=
  result <- translate_text format_other model_invoke source_text source_lang
              target_lang domain tone_style ;;
  ret (translation result, prompt result).

(** [clear_inputs] *)
Definition clear_inputs : pystr * pystr * pystr := ([], [], []).

(** [show_history] *)
Definition show_history : M pystr := get_translation_history.

(** The handler [clear_history]: it calls the method of the agent (the
    [clear_history] of the body) and returns its own copy of the
    confirmation. *)
Definition clear_history : M pystr :=
  clear_history ;;; ret (Py.lit "✅ 翻譯歷史已清除").

(** What the user and the four buttons do. *)
Inductive event :=
| EditText (s : pystr)
| Select (sl tl d ts : pystr)
| TranslateClick
| ClearClick
| HistoryClick
| ClearHistoryClick.

(** [button.click(fn, outputs=...)]: when [fn] raises, the outputs keep
    their values. *)
Definition click {A : Type} (fn : M A) (write : A -> state -> state)
                 (st : state) : state :=
  match fn (agent st) with
  | (Returns out, a) => write out (set_agent a st)
  | (Raises _, a) => set_agent a st
  end.

Definition on_event (st : state) (ev : event) : state :=
  match ev with
  | EditText s => set_source_text s st
  | Select sl tl d ts => set_selectors sl tl d ts st
  | TranslateClick =>
      click
        (perform_translation (source_text st) (source_lang st)
           (target_lang st) (domain st) (tone_style st))
        (fun out => set_outputs (fst out) (snd out)) st
  | ClearClick =>
      let '(a, b, c) := clear_inputs in
      set_source_text a (set_outputs b c st)
  | HistoryClick => click show_history set_history_output st
  | ClearHistoryClick => click clear_history set_history_output st
  end.

Definition run_events (st : state) (evs : list event) : state :=
  fold_left on_event evs st.

End Handlers.

Definition is_history_click (ev : event) : bool :=
  match ev with
  | HistoryClick | ClearHistoryClick => true
  | _ => false
  end.

Definition is_clear_history_click (ev : event) : bool :=
  match ev with
  | ClearHistoryClick => true
  | _ => false
  end.

Definition is_edit (ev : event) : bool :=
  match ev with
  | EditText _ => true
  | _ => false
  end.

Definition is_translate_click (ev : event) : bool :=
  match ev with
  | TranslateClick => true
  | _ => false
  end.

(** [list(translation_agent.languages.keys())], the choices of the two
    language dropdowns. *)
Definition language_choices (a : TranslationAgent) : list pystr :=
  map fst (languages a).

End UI.

(** A state of the interface, for the examples. *)
Definition sample_state : UI.state :=
  {| UI.agent := init;
     UI.source_lang := English;
     UI.target_lang := zh_TW;
     UI.domain := general;
     UI.tone_style := professional;
     UI.source_text := hello_world;
     UI.translation_output := [];
     UI.prompt_output := [];
     UI.history_output := msg_no_history |}.

(** *** Predicates on calls and on the history *)

Definition is_translate (c : call) : bool :=
  match c with
  | TranslateText _ _ _ _ _ => true
  | _ => false
  end.

(** A record as [translate_text] makes them: its source text is not blank,
    and its prompt is a chat message that was sent to the model. *)
Definition record_ok (sent : list pystr) (r : TranslationRecord) : Prop :=
  Py.falsy (Py.strip (rec_source_text r)) = false
  /\ In (rec_prompt r) sent
  /\ Py.startswith human_prefix (rec_prompt r) = true.

Definition history_ok (self : TranslationAgent) : Prop :=
  Forall (record_ok (model_calls self)) (translation_history self).

(** * Properties *)

(** ** Strings *)

Example utf8_code_points : Py.lit "中→✅📚" = [20013; 8594; 9989; 128218]%N.
Proof. reflexivity. Qed.

Example strip_example :
  Py.strip (blank_text ++ Py.lit "hi there" ++ blank_text)
  = Py.lit "hi there".
Proof. reflexivity. Qed.

Lemma lstrip_nil_iff (s : pystr) :
  Py.lstrip s = [] <-> forallb Py.isspace s = true.
Proof.
  induction s as [|c s IH]; simpl.
  - tauto.
  - destruct (Py.isspace c); simpl.
    + exact IH.
    + split; discriminate.
Qed.

Lemma forallb_rev {A : Type} (f : A -> bool) (l : list A) :
  forallb f (rev l) = forallb f l.
Proof.
  induction l as [|a l IH]; simpl; [reflexivity|].
  rewrite forallb_app, IH. simpl. rewrite andb_true_r. apply andb_comm.
Qed.

Lemma lstrip_whitespace_suffix (s : pystr) :
  forallb Py.isspace (Py.lstrip s) = true -> Py.lstrip s = [].
Proof.
  induction s as [|c s IH]; simpl; [reflexivity|].
  destruct (Py.isspace c) eqn:E; [exact IH|].
  simpl. rewrite E. discriminate.
Qed.

(** [s.strip()] is empty exactly when [s] holds whitespace only. *)
Lemma strip_nil_iff (s : pystr) :
  Py.strip s = [] <-> forallb Py.isspace s = true.
Proof.
  unfold Py.strip, Py.rstrip. split.
  - intros H.
    assert (Hl : Py.lstrip (rev (Py.lstrip s)) = []).
    { destruct (Py.lstrip (rev (Py.lstrip s))) as [|x l]; [reflexivity|].
      simpl in H. destruct (rev l); discriminate. }
    apply lstrip_nil_iff in Hl. rewrite forallb_rev in Hl.
    apply lstrip_nil_iff. apply lstrip_whitespace_suffix. exact Hl.
  - intros H. apply lstrip_nil_iff in H. rewrite H. reflexivity.
Qed.

Lemma falsy_nil (s : pystr) : Py.falsy s = true <-> s = [].
Proof. destruct s; simpl; split; congruence. Qed.

Lemma char_eqb_refl (c : Py.char) : Py.char_eqb c c = true.
Proof. apply N.eqb_refl. Qed.

Lemma startswith_app (p s : pystr) : Py.startswith p (p ++ s) = true.
Proof.
  induction p as [|c p IH]; simpl; [reflexivity|].
  now rewrite char_eqb_refl, IH.
Qed.

Lemma contains_unfold (needle hay : pystr) :
  Py.contains needle hay
  = Py.startswith needle hay
    || match hay with [] => false | _ :: hay' => Py.contains needle hay' end.
Proof. destruct hay; reflexivity. Qed.

Lemma contains_app_r (needle before after : pystr) :
  Py.contains needle (before ++ needle ++ after) = true.
Proof.
  induction before as [|c b IH].
  - simpl. rewrite contains_unfold, startswith_app. reflexivity.
  - simpl. rewrite IH. apply orb_true_r.
Qed.

(** ** The monad unfolded: the three ways through [translate_text] *)

Section Unfold.

Variable format_other : pystr -> pystr -> outcome pystr.
Variable model_invoke : list pystr -> pystr -> outcome response.

Lemma translate_text_unfold
    (source_text source_language target_language domain tone_style : pystr)
    (self : TranslationAgent) :
  translate_text format_other model_invoke source_text source_language
    target_language domain tone_style self
  = if Py.falsy (Py.strip source_text) then
      (Returns {| translation := msg_empty_input;
                  prompt := [];
                  status := status_error |}, self)
    else
      match format format_other
              (from_template
                 (complex_template source_language target_language domain
                    tone_style)) source_text with
      | Raises e => (Returns (error_result e), self)
      | Returns p =>
          match model_invoke (model_calls self) p with
          | Raises e => (Returns (error_result e), called self p)
          | Returns resp =>
              (Returns {| translation := str_of_response resp;
                          prompt := p;
                          status := status_success |},
               recorded (called self p)
                 {| rec_source_text := source_text;
                    rec_source_language := source_language;
                    rec_target_language := target_language;
                    rec_domain := domain;
                    rec_tone_style := tone_style;
                    rec_translation := str_of_response resp;
                    rec_prompt := p |})
          end
      end.
Proof.
  unfold translate_text.
  destruct (Py.falsy (Py.strip source_text)); [reflexivity|].
  unfold try_except, bind, lift, invoke, history_append, ret.
  destruct (format _ _ _) as [p|e]; [|reflexivity].
  destruct (model_invoke (model_calls self) p) as [resp|e]; reflexivity.
Qed.

End Unfold.

(** ** Submitting a text *)

Section Submit.

Variable format_other : pystr -> pystr -> outcome pystr.
Variable model_invoke : list pystr -> pystr -> outcome response.

Variables source_text source_language target_language domain
          tone_style : pystr.
Variable self : TranslationAgent.

Let submitted :=
  translate_text format_other model_invoke source_text source_language
    target_language domain tone_style self.

Let rendering :=
  format format_other
    (from_template
       (complex_template source_language target_language domain tone_style))
    source_text.

(** C1. When the text is not empty after [strip], the instruction renders to
    [p] and the model answers [resp] to it, the call returns the answer as
    text with the instruction [p] and status "success", and the history gains
    exactly one record, at its end, holding the five inputs as given, the
    instruction and the answer as text. The answer as text is the answer
    itself when it is a string [s], and the text [str()] gives for it when it
    is another object. *)
Theorem translate_text_success (p : pystr) (resp : response) :
  Py.falsy (Py.strip source_text) = false ->
  rendering = Returns p ->
  model_invoke (model_calls self) p = Returns resp ->
  fst submitted
  = Returns {| translation := str_of_response resp;
               prompt := p;
               status := status_success |}
  /\ translation_history (snd submitted)
     = translation_history self
       ++ [ {| rec_source_text := source_text;
               rec_source_language := source_language;
               rec_target_language := target_language;
               rec_domain := domain;
               rec_tone_style := tone_style;
               rec_translation := str_of_response resp;
               rec_prompt := p |} ]
  /\ length (translation_history (snd submitted))
     = S (length (translation_history self))
  /\ (forall s,
        resp = Str s ->
        fst submitted
        = Returns {| translation := s;
                     prompt := p;
                     status := status_success |}
        /\ translation_history (snd submitted)
           = translation_history self
             ++ [ {| rec_source_text := source_text;
                     rec_source_language := source_language;
                     rec_target_language := target_language;
                     rec_domain := domain;
                     rec_tone_style := tone_style;
                     rec_translation := s;
                     rec_prompt := p |} ])
  /\ (forall as_str,
        resp = Obj as_str ->
        fst submitted
        = Returns {| translation := as_str;
                     prompt := p;
                     status := status_success |}
        /\ translation_history (snd submitted)
           = translation_history self
             ++ [ {| rec_source_text := source_text;
                     rec_source_language := source_language;
                     rec_target_language := target_language;
                     rec_domain := domain;
                     rec_tone_style := tone_style;
                     rec_translation := as_str;
                     rec_prompt := p |} ]).
Proof.
  intros Hne Hp Hm. subst submitted rendering.
  rewrite translate_text_unfold, Hne, Hp, Hm. simpl.
  split; [reflexivity|]. split; [reflexivity|]. split.
  - rewrite length_app. simpl. lia.
  - split.
    + intros s ->. split; reflexivity.
    + intros as_str ->. split; reflexivity.
Qed.

(** C2. When the text is empty or holds whitespace only, whatever the four
    selectors, the call returns the placeholder message with an empty prompt
    and status "error", and the agent is left as it was: the model is sent
    nothing and the history is unchanged. *)
Theorem translate_text_blank :
  forallb Py.isspace source_text = true ->
  fst submitted
  = Returns {| translation := msg_empty_input;
               prompt := [];
               status := status_error |}
  /\ snd submitted = self
  /\ model_calls (snd submitted) = model_calls self
  /\ translation_history (snd submitted) = translation_history self.
Proof.
  intros Hb. apply strip_nil_iff, falsy_nil in Hb. subst submitted.
  rewrite translate_text_unfold, Hb. simpl. repeat split.
Qed.

(** C3. When the text is not empty after [strip] and either rendering the
    template raises [e], or the model raises [e] on the rendered instruction,
    the call returns (it does not raise) a result with status "error", an
    empty prompt and a message that ends with [str(e)]; the history is
    unchanged; and the model is contacted at most once: not at all when
    rendering raised, once when the model raised. *)
Theorem translate_text_failure (e : Exception) :
  Py.falsy (Py.strip source_text) = false ->
  rendering = Raises e
  \/ (exists p, rendering = Returns p
                /\ model_invoke (model_calls self) p = Raises e) ->
  fst submitted
  = Returns {| translation := msg_error_prefix ++ exc_str e;
               prompt := [];
               status := status_error |}
  /\ (forall r, fst submitted = Returns r ->
        Py.contains (exc_str e) (translation r) = true)
  /\ translation_history (snd submitted) = translation_history self
  /\ (rendering = Raises e -> model_calls (snd submitted) = model_calls self)
  /\ (forall p, rendering = Returns p ->
        model_calls (snd submitted) = model_calls self ++ [p]).
Proof.
  intros Hne Hfail. subst submitted rendering.
  rewrite translate_text_unfold, Hne.
  assert (Hc : Py.contains (exc_str e) (msg_error_prefix ++ exc_str e) = true).
  { rewrite <- (app_nil_r (exc_str e)) at 2. apply contains_app_r. }
  destruct Hfail as [Hr | [p [Hr Hm]]]; rewrite Hr; [|rewrite Hm]; simpl.
  - repeat split; try discriminate.
    intros r Hret. injection Hret as <-. exact Hc.
  - repeat split; try discriminate.
    + intros r Hret. injection Hret as <-. exact Hc.
    + intros q Hq. injection Hq as <-. reflexivity.
Qed.

(** C10. Every call returns a result, and its prompt is the empty string
    exactly when its status is "error": both error branches return an empty
    prompt, and a successful call returns the rendered instruction, which
    starts with the role prefix of the chat message and so is not empty. *)
Theorem translate_text_prompt_empty_iff_error :
  exists r, fst submitted = Returns r
            /\ (prompt r = [] <-> status r = status_error).
Proof.
  subst submitted. rewrite translate_text_unfold.
  destruct (Py.falsy (Py.strip source_text)).
  { eexists; split; [reflexivity|]. simpl. tauto. }
  unfold format.
  destruct (vformat _ _ _) as [content|].
  - destruct (model_invoke _ _) as [resp|e];
      (eexists; split; [reflexivity|]); simpl; split;
      solve [reflexivity | discriminate].
  - destruct (format_other _ _) as [content|e].
    + destruct (model_invoke _ _) as [resp|e];
        (eexists; split; [reflexivity|]); simpl; split;
        solve [reflexivity | discriminate].
    + eexists; split; [reflexivity|]. simpl. tauto.
Qed.

End Submit.

Lemma translate_text_success_witness :
  Py.falsy (Py.strip hello_world) = false
  /\ fst (translate_text strict_formatter echo_model hello_world English
            zh_TW general professional init)
     = Returns
         {| translation :=
              human_prefix
              ++ five_point English zh_TW general professional hello_world;
            prompt :=
              human_prefix
              ++ five_point English zh_TW general professional hello_world;
            status := status_success |}
  /\ length
       (translation_history
          (snd (translate_text strict_formatter echo_model hello_world
                  English zh_TW general professional init))) = 1.
Proof.
  split; [reflexivity|].
  destruct (translate_text_success strict_formatter echo_model hello_world
              English zh_TW general professional init
              (human_prefix
               ++ five_point English zh_TW general professional hello_world)
              (Str (human_prefix
                    ++ five_point English zh_TW general professional
                         hello_world)))
    as (_ & _ & H & Hstr & _).
  - reflexivity.
  - vm_compute. reflexivity.
  - reflexivity.
  - split; [|exact H].
    exact (proj1 (Hstr _ eq_refl)).
Defined.

Lemma translate_text_blank_witness :
  forallb Py.isspace blank_text = true
  /\ snd (translate_text strict_formatter echo_model blank_text
            English zh_TW general professional init) = init.
Proof.
  split; [reflexivity|].
  destruct (translate_text_blank strict_formatter echo_model
              blank_text English zh_TW general professional init)
    as (_ & H & _).
  - reflexivity.
  - exact H.
Defined.

Lemma translate_text_failure_witness :
  Py.falsy (Py.strip hello_world) = false
  /\ translation_history
       (snd (translate_text strict_formatter failing_model hello_world
               English zh_TW general professional init)) = []
  /\ translation_history
       (snd (translate_text strict_formatter echo_model hello_world
               English zh_TW (Py.lit "{x}") professional init)) = [].
Proof.
  split; [reflexivity|]. split.
  - destruct (translate_text_failure strict_formatter failing_model
                hello_world English zh_TW general professional init
                connection_error) as (_ & _ & H & _).
    + reflexivity.
    + right.
      exists (human_prefix
              ++ five_point English zh_TW general professional hello_world).
      split; [vm_compute; reflexivity | reflexivity].
    + exact H.
  - destruct (translate_text_failure strict_formatter echo_model
                hello_world English zh_TW (Py.lit "{x}") professional init
                key_error) as (_ & _ & H & _).
    + reflexivity.
    + left. vm_compute. reflexivity.
    + exact H.
Defined.

(** ** Rendering the template *)

Lemma vformat_plain (text l rest : pystr) :
  brace_free l = true ->
  vformat text Plain (l ++ rest)
  = option_map (app l) (vformat text Plain rest).
Proof.
  induction l as [|c l IH]; simpl; intros H.
  - destruct (vformat text Plain rest); reflexivity.
  - apply andb_prop in H. destruct H as [Hc Hl].
    apply negb_true_iff, orb_false_iff in Hc. destruct Hc as [Ho Hcl].
    rewrite Ho, Hcl, (IH Hl).
    destruct (vformat text Plain rest); reflexivity.
Qed.

Lemma vformat_slot (text rest : pystr) :
  vformat text Plain (text_slot ++ rest)
  = option_map (app text) (vformat text Plain rest).
Proof. reflexivity. Qed.

Lemma vformat_last (text l : pystr) :
  brace_free l = true -> vformat text Plain l = Some l.
Proof.
  intros H. rewrite <- (app_nil_r l) at 1.
  rewrite (vformat_plain text l [] H). simpl. now rewrite app_nil_r.
Qed.

Ltac plain_piece := rewrite vformat_plain by (assumption || reflexivity).

(** With selectors free of braces the template is in the fragment, and it
    renders to the five-point text with the [text] argument in the slot. *)
Lemma vformat_complex_template
    (source_language target_language domain tone_style text : pystr) :
  brace_free source_language = true ->
  brace_free target_language = true ->
  brace_free domain = true ->
  brace_free tone_style = true ->
  vformat text Plain
    (complex_template source_language target_language domain tone_style)
  = Some (five_point source_language target_language domain tone_style text).
Proof.
  intros Hs Ht Hd Hto. unfold complex_template, five_point.
  repeat plain_piece. rewrite vformat_slot.
  do 2 plain_piece.
  rewrite (vformat_last text (Py.lit "翻譯：" ++ nl)) by reflexivity.
  reflexivity.
Qed.

Lemma format_plain_selectors
    (format_other : pystr -> pystr -> outcome pystr)
    (source_language target_language domain tone_style text : pystr) :
  brace_free source_language = true ->
  brace_free target_language = true ->
  brace_free domain = true ->
  brace_free tone_style = true ->
  format format_other
    (from_template
       (complex_template source_language target_language domain tone_style))
    text
  = Returns
      (human_prefix
       ++ five_point source_language target_language domain tone_style text).
Proof.
  intros Hs Ht Hd Hto. unfold format, from_template. simpl template.
  rewrite vformat_complex_template by assumption. reflexivity.
Qed.

(** Every label of the three catalogs is free of braces. *)
Lemma catalog_labels_plain :
  forallb brace_free
    (map fst init_languages ++ init_domains ++ init_tone_styles) = true.
Proof. reflexivity. Qed.

(** The prompt of a successful call is the rendered instruction. *)
Lemma success_prompt
    (format_other : pystr -> pystr -> outcome pystr)
    (model_invoke : list pystr -> pystr -> outcome response)
    (source_text source_language target_language domain tone_style : pystr)
    (self : TranslationAgent) (p : pystr) (r : Result) :
  format format_other
    (from_template
       (complex_template source_language target_language domain tone_style))
    source_text = Returns p ->
  fst (translate_text format_other model_invoke source_text source_language
         target_language domain tone_style self) = Returns r ->
  status r = status_success ->
  prompt r = p.
Proof.
  intros Hp Hr Hs. rewrite translate_text_unfold, Hp in Hr.
  destruct (Py.falsy (Py.strip source_text)).
  { simpl in Hr. injection Hr as <-. discriminate Hs. }
  destruct (model_invoke (model_calls self) p) as [resp|e];
    simpl in Hr; injection Hr as <-.
  - reflexivity.
  - discriminate Hs.
Qed.

(** C6. Submitting "Hello world" from English to 繁體中文, domain 一般, tone
    專業, to a model that echoes its input appends one record whose rendered
    instruction contains each of the five strings literally. *)
Theorem hello_world_record
    (format_other : pystr -> pystr -> outcome pystr)
    (self : TranslationAgent) :
  exists record,
    translation_history
      (snd (translate_text format_other echo_model (Py.lit "Hello world")
              (Py.lit "English") (Py.lit "繁體中文") (Py.lit "一般")
              (Py.lit "專業") self))
    = translation_history self ++ [record]
    /\ Py.contains (Py.lit "English") (rec_prompt record) = true
    /\ Py.contains (Py.lit "繁體中文") (rec_prompt record) = true
    /\ Py.contains (Py.lit "一般") (rec_prompt record) = true
    /\ Py.contains (Py.lit "專業") (rec_prompt record) = true
    /\ Py.contains (Py.lit "Hello world") (rec_prompt record) = true.
Proof.
  rewrite translate_text_unfold.
  replace (Py.falsy (Py.strip (Py.lit "Hello world"))) with false
    by reflexivity.
  rewrite format_plain_selectors by reflexivity.
  unfold echo_model. simpl snd. simpl translation_history.
  eexists. split; [reflexivity|].
  simpl rec_prompt. repeat split; vm_compute; reflexivity.
Qed.

(** C7, as stated, fails: a text with surrounding whitespace is embedded
    with that whitespace, not trimmed; and a selector with doubled braces is
    not substituted as it stands. *)
Lemma instruction_not_trimmed :
  (exists r,
     fst (translate_text strict_formatter echo_model
            (Py.lit "  Hello world ") English zh_TW general professional
            init) = Returns r
     /\ status r = status_success
     /\ prompt r
        <> human_prefix
           ++ five_point English zh_TW general professional
                (Py.strip (Py.lit "  Hello world "))
     /\ prompt r
        = human_prefix
          ++ five_point English zh_TW general professional
               (Py.lit "  Hello world "))
  /\ (exists r,
        fst (translate_text strict_formatter echo_model hello_world English
               zh_TW (Py.lit "{{x}}") professional init) = Returns r
        /\ status r = status_success
        /\ prompt r
           <> human_prefix
              ++ five_point English zh_TW (Py.lit "{{x}}") professional
                   hello_world).
Proof.
  split.
  - eexists. split; [vm_compute; reflexivity|].
    split; [reflexivity|]. split; [|vm_compute; reflexivity].
    vm_compute. intros H. discriminate H.
  - eexists. split; [vm_compute; reflexivity|].
    split; [reflexivity|]. vm_compute. intros H. discriminate H.
Qed.

(** C7, amended. For a text that is not empty after [strip] and selectors
    free of brace characters (as every catalog label is), the instruction
    renders to the role prefix followed by the five-point template with the
    four selectors substituted and the source text in its slot exactly as it
    was given, surrounding whitespace included; this is what the model is
    sent and what a successful call returns as prompt. *)
Theorem translate_text_instruction
    (format_other : pystr -> pystr -> outcome pystr)
    (model_invoke : list pystr -> pystr -> outcome response)
    (source_text source_language target_language domain tone_style : pystr)
    (self : TranslationAgent) :
  Py.falsy (Py.strip source_text) = false ->
  brace_free source_language = true ->
  brace_free target_language = true ->
  brace_free domain = true ->
  brace_free tone_style = true ->
  format format_other
    (from_template
       (complex_template source_language target_language domain tone_style))
    source_text
  = Returns
      (human_prefix
       ++ five_point source_language target_language domain tone_style
            source_text)
  /\ model_calls
       (snd (translate_text format_other model_invoke source_text
               source_language target_language domain tone_style self))
     = model_calls self
       ++ [human_prefix
           ++ five_point source_language target_language domain tone_style
                source_text]
  /\ (forall r,
        fst (translate_text format_other model_invoke source_text
               source_language target_language domain tone_style self)
        = Returns r ->
        status r = status_success ->
        prompt r
        = human_prefix
          ++ five_point source_language target_language domain tone_style
               source_text).
Proof.
  intros Hne Hs Ht Hd Hto.
  pose proof (format_plain_selectors format_other source_language
                target_language domain tone_style source_text Hs Ht Hd Hto)
    as Hf.
  split; [exact Hf|]. split.
  - rewrite translate_text_unfold, Hne, Hf.
    destruct (model_invoke _ _); reflexivity.
  - intros r Hr Hst. exact (success_prompt _ _ _ _ _ _ _ _ _ r Hf Hr Hst).
Qed.

Lemma translate_text_instruction_witness :
  model_calls
    (snd (translate_text strict_formatter echo_model
            (Py.lit "  Hello world ") English zh_TW general professional
            init))
  = [human_prefix
     ++ five_point English zh_TW general professional
          (Py.lit "  Hello world ")].
Proof.
  destruct (translate_text_instruction strict_formatter echo_model
              (Py.lit "  Hello world ") English zh_TW general professional
              init) as (_ & H & _).
  - reflexivity.
  - reflexivity.
  - reflexivity.
  - reflexivity.
  - reflexivity.
  - exact H.
Defined.

(** C8, as stated, fails: the language table maps "English" to "英文", and
    the instruction of a submission from English carries "English", not the
    mapped label. *)
Lemma instruction_ignores_mapping :
  dict_get (languages init) (Py.lit "English") = Some (Py.lit "英文")
  /\ exists r,
       fst (translate_text strict_formatter echo_model hello_world English
              zh_TW general professional init) = Returns r
       /\ status r = status_success
       /\ Py.contains (Py.lit "English") (prompt r) = true
       /\ Py.contains (Py.lit "英文") (prompt r) = false
       /\ prompt r
          <> human_prefix
             ++ five_point (mapped_label (languages init) English)
                  (mapped_label (languages init) zh_TW) general professional
                  hello_world.
Proof.
  split; [reflexivity|].
  eexists. split; [vm_compute; reflexivity|].
  split; [reflexivity|]. split; [vm_compute; reflexivity|].
  split; [vm_compute; reflexivity|].
  vm_compute. intros H. discriminate H.
Qed.

(** C8, amended. [translate_text] neither changes nor reads the three
    catalogs: for every submission the call leaves them as they are and
    gives the same result, the same history and the same prompts sent to the
    model whatever they hold. For selectors free of brace characters the
    labels in the instruction are the selectors exactly as they were
    passed. *)
Theorem catalogs_not_consulted
    (format_other : pystr -> pystr -> outcome pystr)
    (model_invoke : list pystr -> pystr -> outcome response)
    (source_text source_language target_language domain tone_style : pystr)
    (self : TranslationAgent)
    (langs : list (pystr * pystr)) (doms tones : list pystr) :
  (languages
     (snd (translate_text format_other model_invoke source_text
             source_language target_language domain tone_style self))
   = languages self
   /\ domains
        (snd (translate_text format_other model_invoke source_text
                source_language target_language domain tone_style self))
      = domains self
   /\ tone_styles
        (snd (translate_text format_other model_invoke source_text
                source_language target_language domain tone_style self))
      = tone_styles self)
  /\ fst (translate_text format_other model_invoke source_text
            source_language target_language domain tone_style
            (with_catalogs self langs doms tones))
     = fst (translate_text format_other model_invoke source_text
              source_language target_language domain tone_style self)
  /\ translation_history
       (snd (translate_text format_other model_invoke source_text
               source_language target_language domain tone_style
               (with_catalogs self langs doms tones)))
     = translation_history
         (snd (translate_text format_other model_invoke source_text
                 source_language target_language domain tone_style self))
  /\ model_calls
       (snd (translate_text format_other model_invoke source_text
               source_language target_language domain tone_style
               (with_catalogs self langs doms tones)))
     = model_calls
         (snd (translate_text format_other model_invoke source_text
                 source_language target_language domain tone_style self))
  /\ (brace_free source_language = true ->
      brace_free target_language = true ->
      brace_free domain = true ->
      brace_free tone_style = true ->
      forall r,
        fst (translate_text format_other model_invoke source_text
               source_language target_language domain tone_style
               (with_catalogs self langs doms tones))
        = Returns r ->
        status r = status_success ->
        prompt r
        = human_prefix
          ++ five_point source_language target_language domain tone_style
               source_text).
Proof.
  split; [|split; [|split; [|split]]].
  - rewrite translate_text_unfold.
    destruct (Py.falsy _); [repeat split|].
    destruct (format _ _ _) as [p|e]; [|repeat split].
    destruct (model_invoke _ _); repeat split.
  - rewrite !translate_text_unfold. simpl model_calls.
    destruct (Py.falsy _); [reflexivity|].
    destruct (format _ _ _) as [p|e]; [|reflexivity].
    destruct (model_invoke _ _); reflexivity.
  - rewrite !translate_text_unfold. simpl model_calls.
    destruct (Py.falsy _); [reflexivity|].
    destruct (format _ _ _) as [p|e]; [|reflexivity].
    destruct (model_invoke _ _); reflexivity.
  - rewrite !translate_text_unfold. simpl model_calls.
    destruct (Py.falsy _); [reflexivity|].
    destruct (format _ _ _) as [p|e]; [|reflexivity].
    destruct (model_invoke _ _); reflexivity.
  - intros Hs Ht Hd Hto r Hr Hst.
    pose proof (format_plain_selectors format_other source_language
                  target_language domain tone_style source_text Hs Ht Hd Hto)
      as Hf.
    exact (success_prompt _ _ _ _ _ _ _ _ _ r Hf Hr Hst).
Qed.

Lemma catalogs_not_consulted_witness :
  fst (translate_text strict_formatter echo_model hello_world English
         (Py.lit "{x}") general professional (with_catalogs init [] [] []))
  = fst (translate_text strict_formatter echo_model hello_world English
           (Py.lit "{x}") general professional init)
  /\ forall r,
       fst (translate_text strict_formatter echo_model hello_world English
              zh_TW general professional (with_catalogs init [] [] []))
       = Returns r ->
       status r = status_success ->
       prompt r
       = human_prefix
         ++ five_point English zh_TW general professional hello_world.
Proof.
  split.
  - destruct (catalogs_not_consulted strict_formatter echo_model hello_world
                English (Py.lit "{x}") general professional init [] [] [])
      as (_ & H & _).
    exact H.
  - destruct (catalogs_not_consulted strict_formatter echo_model hello_world
                English zh_TW general professional init [] [] [])
      as (_ & _ & _ & _ & H).
    apply H; reflexivity.
Defined.

(** ** The history view *)

Lemma shown_truncated (limit : nat) (s : pystr) :
  shown limit s = truncated limit s.
Proof.
  unfold shown, truncated, Py.slice_to.
  destruct (Nat.leb_spec (length s) limit) as [Hle|Hlt].
  - apply Nat.ltb_ge in Hle as Hb. rewrite Hb, app_nil_r.
    now apply firstn_all2.
  - apply Nat.ltb_lt in Hlt as Hb. now rewrite Hb.
Qed.

Lemma history_loop_concat (records : list TranslationRecord) :
  forall (history_text : pystr) (i : nat),
    history_loop history_text i records
    = history_text
      ++ concat (map view_entry (combine (seq i (length records)) records)).
Proof.
  induction records as [|record records IH]; intros history_text i.
  - simpl. now rewrite app_nil_r.
  - cbn [history_loop length seq combine map concat].
    rewrite IH, !shown_truncated. unfold view_entry.
    rewrite <- !app_assoc. reflexivity.
Qed.

Lemma last_n_suffix {A : Type} (n : nat) (l : list A) :
  l = firstn (length l - n) l ++ Py.last_n n l
  /\ length (Py.last_n n l) = Nat.min (length l) n.
Proof.
  unfold Py.last_n. split.
  - symmetry. apply firstn_skipn.
  - rewrite length_skipn. lia.
Qed.

(** C4. [get_translation_history] leaves the agent as it is. On an empty
    history it returns the "no records" message. Otherwise it returns the
    header followed by one entry per record of the view, where the view is
    the last [min(N, 10)] records of the history in insertion order, numbered
    from 1, each entry showing the source text cut to 100 characters and the
    output text cut to 150, with the ellipsis exactly when the text was
    longer. *)
Theorem get_translation_history_view (self : TranslationAgent) :
  snd (get_translation_history self) = self
  /\ (translation_history self = [] ->
      fst (get_translation_history self) = Returns msg_no_history)
  /\ (translation_history self <> [] ->
      exists older view,
        translation_history self = older ++ view
        /\ length view = Nat.min (length (translation_history self)) 10
        /\ fst (get_translation_history self)
           = Returns
               (history_header ++ concat (map view_entry (numbered view))))
  /\ (forall limit s,
        (length s <= limit -> truncated limit s = s)
        /\ (limit < length s -> truncated limit s = firstn limit s ++ ellipsis)).
Proof.
  unfold get_translation_history.
  split; [destruct (translation_history self); reflexivity|].
  split; [intros ->; reflexivity|]. split.
  - intros Hne.
    destruct (last_n_suffix 10 (translation_history self)) as [Hsplit Hlen].
    exists (firstn (length (translation_history self) - 10)
              (translation_history self)),
           (Py.last_n 10 (translation_history self)).
    split; [exact Hsplit|]. split; [exact Hlen|].
    destruct (translation_history self) as [|r h] eqn:E; [congruence|].
    cbn [fst]. now rewrite history_loop_concat.
  - intros limit s. unfold truncated. split; intros H.
    + apply Nat.leb_le in H. now rewrite H.
    + apply Nat.leb_gt in H. now rewrite H.
Qed.

Lemma get_translation_history_view_witness :
  exists older view,
    map sample_record (seq 0 12) = older ++ view
    /\ length view = 10
    /\ fst (get_translation_history
              (agent_with (map sample_record (seq 0 12))))
       = Returns (history_header ++ concat (map view_entry (numbered view))).
Proof.
  destruct (get_translation_history_view
              (agent_with (map sample_record (seq 0 12))))
    as (_ & _ & H & _).
  destruct H as (older & view & H1 & H2 & H3).
  - discriminate.
  - exists older, view. split; [exact H1|]. split; [exact H2|exact H3].
Defined.

(** ** Clearing the history *)

Lemma agent_eta (self : TranslationAgent) :
  {| model_calls := model_calls self;
     translation_history := translation_history self;
     languages := languages self;
     domains := domains self;
     tone_styles := tone_styles self |} = self.
Proof. destruct self; reflexivity. Qed.

(** C5. [clear_history] empties the history whatever it held and returns the
    confirmation; clearing again changes nothing and confirms again;
    clearing an empty history leaves the agent as it is; and the history
    view asked next is the "no records" message. *)
Theorem clear_history_resets (self : TranslationAgent) :
  fst (clear_history self) = Returns msg_cleared
  /\ translation_history (snd (clear_history self)) = []
  /\ clear_history (snd (clear_history self))
     = (Returns msg_cleared, snd (clear_history self))
  /\ (translation_history self = [] -> snd (clear_history self) = self)
  /\ fst (get_translation_history (snd (clear_history self)))
     = Returns msg_no_history
  /\ (model_calls (snd (clear_history self)) = model_calls self
      /\ languages (snd (clear_history self)) = languages self
      /\ domains (snd (clear_history self)) = domains self
      /\ tone_styles (snd (clear_history self)) = tone_styles self).
Proof.
  unfold clear_history. cbn [fst snd].
  split; [reflexivity|]. split; [reflexivity|]. split; [reflexivity|].
  split.
  - intros H. rewrite <- H. apply agent_eta.
  - split; [reflexivity|]. repeat split.
Qed.

Lemma clear_history_resets_witness :
  snd (clear_history init) = init
  /\ fst (get_translation_history
            (snd (clear_history (agent_with (map sample_record (seq 0 3))))))
     = Returns msg_no_history.
Proof.
  split.
  - destruct (clear_history_resets init) as (_ & _ & _ & H & _).
    apply H. reflexivity.
  - destruct (clear_history_resets
                (agent_with (map sample_record (seq 0 3))))
      as (_ & _ & _ & _ & H & _).
    exact H.
Defined.

(** ** Sequences of calls *)

Section Sequences.

Variable format_other : pystr -> pystr -> outcome pystr.
Variable model_invoke : list pystr -> pystr -> outcome response.

(** One call leaves the history as it is, adds one record at its end, or,
    for [clear_history] only, empties it. *)
Lemma step_history (self : TranslationAgent) (c : call) :
  translation_history (step format_other model_invoke self c)
  = translation_history self
  \/ (exists r,
        translation_history (step format_other model_invoke self c)
        = translation_history self ++ [r])
  \/ (c = ClearHistory
      /\ translation_history (step format_other model_invoke self c) = []).
Proof.
  destruct c as [text sl tl d ts| |]; unfold step, after.
  - rewrite translate_text_unfold.
    destruct (Py.falsy _); [left; reflexivity|].
    destruct (format _ _ _) as [p|e]; [|left; reflexivity].
    destruct (model_invoke _ _) as [resp|e]; [|left; reflexivity].
    right; left. eexists. reflexivity.
  - left. unfold get_translation_history.
    destruct (translation_history self) eqn:E; cbn [snd]; exact E.
  - right; right. split; reflexivity.
Qed.

Lemma step_history_no_clear (self : TranslationAgent) (c : call) :
  is_clear c = false ->
  exists added,
    translation_history (step format_other model_invoke self c)
    = translation_history self ++ added
    /\ length added <= 1.
Proof.
  intros Hc. destruct (step_history self c) as [H | [[r H] | [Heq _]]].
  - exists []. rewrite app_nil_r. split; [exact H | simpl; lia].
  - exists [r]. split; [exact H | simpl; lia].
  - subst c. discriminate Hc.
Qed.

Lemma run_history_no_clear (calls : list call) :
  forall self,
    existsb is_clear calls = false ->
    exists added,
      translation_history (run format_other model_invoke self calls)
      = translation_history self ++ added
      /\ length added <= length calls.
Proof.
  induction calls as [|c calls IH]; intros self Hnc.
  - exists []. rewrite app_nil_r. split; [reflexivity | simpl; lia].
  - simpl in Hnc. apply orb_false_iff in Hnc. destruct Hnc as [Hc Hcs].
    destruct (step_history_no_clear self c Hc) as (a1 & H1 & L1).
    destruct (IH (step format_other model_invoke self c) Hcs)
      as (a2 & H2 & L2).
    exists (a1 ++ a2). split.
    + change (run format_other model_invoke self (c :: calls))
        with (run format_other model_invoke
                (step format_other model_invoke self c) calls).
      rewrite H2, H1, app_assoc. reflexivity.
    + rewrite length_app. simpl. lia.
Qed.

(** C9. The history is append-only except for the full clear. Each call
    leaves it unchanged, appends exactly one record at its end, or (only
    [clear_history]) empties it. Over a sequence of calls without a clear the
    earlier history stays as a prefix: every entry keeps its position and its
    fields. After a clear, the history holds only records appended later. *)
Theorem history_append_only :
  (forall self c,
      translation_history (step format_other model_invoke self c)
      = translation_history self
      \/ (exists r,
            translation_history (step format_other model_invoke self c)
            = translation_history self ++ [r])
      \/ (c = ClearHistory
          /\ translation_history (step format_other model_invoke self c)
             = []))
  /\ (forall self calls,
        existsb is_clear calls = false ->
        exists added,
          translation_history (run format_other model_invoke self calls)
          = translation_history self ++ added
          /\ length added <= length calls)
  /\ (forall self calls i r,
        existsb is_clear calls = false ->
        nth_error (translation_history self) i = Some r ->
        nth_error
          (translation_history (run format_other model_invoke self calls)) i
        = Some r)
  /\ (forall self before later,
        existsb is_clear later = false ->
        exists added,
          translation_history
            (run format_other model_invoke self
               (before ++ ClearHistory :: later))
          = added
          /\ length added <= length later).
Proof.
  split; [exact step_history|]. split; [|split].
  - intros self calls. apply run_history_no_clear.
  - intros self calls i r Hnc Hi.
    destruct (run_history_no_clear calls self Hnc) as (added & H & _).
    rewrite H, nth_error_app1; [exact Hi|].
    apply nth_error_Some. congruence.
  - intros self before later Hnc.
    destruct (run_history_no_clear later
                (step format_other model_invoke
                   (run format_other model_invoke self before) ClearHistory)
                Hnc)
      as (added & H & L).
    unfold run in *. rewrite fold_left_app. cbn [fold_left].
    exists added. split; [|exact L]. exact H.
Qed.

End Sequences.

Lemma history_append_only_witness :
  nth_error
    (translation_history
       (run strict_formatter echo_model
          (agent_with (map sample_record (seq 0 2)))
          [TranslateText hello_world English zh_TW general professional;
           GetTranslationHistory;
           TranslateText (Py.lit " ") English zh_TW general professional]))
    1
  = Some (sample_record 1).
Proof.
  destruct (history_append_only strict_formatter echo_model)
    as (_ & _ & H & _).
  apply H; reflexivity.
Defined.

(** * Further properties of the agent *)

(** ** What a call returns and what it does to the agent *)

Section Calls.

Variable format_other : pystr -> pystr -> outcome pystr.
Variable model_invoke : list pystr -> pystr -> outcome response.

Lemma format_returns_prefixed (t text p : pystr) :
  format format_other (from_template t) text = Returns p ->
  exists content, p = human_prefix ++ content.
Proof.
  unfold format. destruct (vformat _ _ _) as [content|].
  - intros H. injection H as <-. now exists content.
  - destruct (format_other _ _) as [content|e]; [|discriminate].
    intros H. injection H as <-. now exists content.
Qed.

(** X1. The placeholder result is returned for whitespace-only text and for no
    other: a failure message never equals the placeholder, and a success has
    another status. *)
Theorem placeholder_iff_blank
    (source_text source_language target_language domain tone_style : pystr)
    (self : TranslationAgent) :
  fst (translate_text format_other model_invoke source_text source_language
         target_language domain tone_style self)
  = Returns {| translation := msg_empty_input;
               prompt := [];
               status := status_error |}
  <-> forallb Py.isspace source_text = true.
Proof.
  rewrite translate_text_unfold. split.
  - destruct (Py.falsy (Py.strip source_text)) eqn:Hb.
    + intros _. now apply strip_nil_iff, falsy_nil.
    + destruct (format _ _ _) as [p|e].
      * destruct (model_invoke _ _) as [resp|e]; cbn [fst]; intros H;
          injection H as H1 H2; try discriminate.
      * cbn [fst]. intros H. injection H as H1. discriminate.
  - intros Hs. apply strip_nil_iff, falsy_nil in Hs. now rewrite Hs.
Qed.

(** X2. Every call returns a result whose status tells what happened to the
    history: "success" with exactly one record appended, which holds the
    five inputs and the returned translation and prompt, or "error" with the
    history as it was. *)
Theorem status_tracks_history
    (source_text source_language target_language domain tone_style : pystr)
    (self : TranslationAgent) :
  exists r,
    fst (translate_text format_other model_invoke source_text source_language
           target_language domain tone_style self) = Returns r
    /\ ((status r = status_success
         /\ translation_history
              (snd (translate_text format_other model_invoke source_text
                      source_language target_language domain tone_style
                      self))
            = translation_history self
              ++ [ {| rec_source_text := source_text;
                      rec_source_language := source_language;
                      rec_target_language := target_language;
                      rec_domain := domain;
                      rec_tone_style := tone_style;
                      rec_translation := translation r;
                      rec_prompt := prompt r |} ])
        \/ (status r = status_error
            /\ translation_history
                 (snd (translate_text format_other model_invoke source_text
                         source_language target_language domain tone_style
                         self))
               = translation_history self)).
Proof.
  rewrite translate_text_unfold.
  destruct (Py.falsy _).
  { eexists. split; [reflexivity|]. right. split; reflexivity. }
  destruct (format _ _ _) as [p|e].
  - destruct (model_invoke _ _) as [resp|e]; eexists;
      (split; [reflexivity|]).
    + left. split; reflexivity.
    + right. split; reflexivity.
  - eexists. split; [reflexivity|]. right. split; reflexivity.
Qed.

(** ** Invariants over sequences of calls *)

Lemma step_model_calls (self : TranslationAgent) (c : call) :
  exists sent,
    model_calls (step format_other model_invoke self c)
    = model_calls self ++ sent
    /\ length sent <= (if is_translate c then 1 else 0).
Proof.
  destruct c as [text sl tl d ts| |]; unfold step, after.
  - rewrite translate_text_unfold.
    destruct (Py.falsy _);
      [exists []; rewrite app_nil_r; split; [reflexivity | simpl; lia]|].
    destruct (format _ _ _) as [p|e];
      [|exists []; rewrite app_nil_r; split; [reflexivity | simpl; lia]].
    exists [p].
    destruct (model_invoke _ _); split; solve [reflexivity | simpl; lia].
  - exists []. rewrite app_nil_r. unfold get_translation_history.
    destruct (translation_history self); split; solve [reflexivity | simpl; lia].
  - exists []. rewrite app_nil_r. split; [reflexivity | simpl; lia].
Qed.

(** X3. Over any sequence of calls the model is sent at most one prompt per
    [translate_text] call and none by the two history methods; the prompts
    sent earlier stay on record, also across [clear_history]. *)
Theorem model_contacted_once_per_submission (calls : list call) :
  forall self,
  exists sent,
    model_calls (run format_other model_invoke self calls)
    = model_calls self ++ sent
    /\ length sent <= length (filter is_translate calls).
Proof.
  induction calls as [|c calls IH]; intros self.
  - exists []. rewrite app_nil_r. split; [reflexivity | simpl; lia].
  - destruct (step_model_calls self c) as (s1 & H1 & L1).
    destruct (IH (step format_other model_invoke self c)) as (s2 & H2 & L2).
    exists (s1 ++ s2). split.
    + change (run format_other model_invoke self (c :: calls))
        with (run format_other model_invoke
                (step format_other model_invoke self c) calls).
      rewrite H2, H1, app_assoc. reflexivity.
    + rewrite length_app. simpl filter.
      destruct (is_translate c); simpl length; lia.
Qed.

Lemma step_catalogs (self : TranslationAgent) (c : call) :
  languages (step format_other model_invoke self c) = languages self
  /\ domains (step format_other model_invoke self c) = domains self
  /\ tone_styles (step format_other model_invoke self c) = tone_styles self.
Proof.
  destruct c as [text sl tl d ts| |]; unfold step, after.
  - rewrite translate_text_unfold.
    destruct (Py.falsy _); [repeat split|].
    destruct (format _ _ _) as [p|e]; [|repeat split].
    destruct (model_invoke _ _); repeat split.
  - unfold get_translation_history.
    destruct (translation_history self); repeat split.
  - repeat split.
Qed.

(** X4. No sequence of calls changes the three catalogs. *)
Theorem catalogs_read_only (calls : list call) :
  forall self,
    languages (run format_other model_invoke self calls) = languages self
    /\ domains (run format_other model_invoke self calls) = domains self
    /\ tone_styles (run format_other model_invoke self calls)
       = tone_styles self.
Proof.
  induction calls as [|c calls IH]; intros self; [repeat split|].
  change (run format_other model_invoke self (c :: calls))
    with (run format_other model_invoke
            (step format_other model_invoke self c) calls).
  destruct (IH (step format_other model_invoke self c)) as (H1 & H2 & H3).
  destruct (step_catalogs self c) as (S1 & S2 & S3).
  rewrite H1, H2, H3. repeat split; assumption.
Qed.

Lemma record_ok_more (sent extra : list pystr) (r : TranslationRecord) :
  record_ok sent r -> record_ok (sent ++ extra) r.
Proof.
  intros (H1 & H2 & H3). split; [exact H1|]. split; [|exact H3].
  apply in_or_app. now left.
Qed.

Lemma step_history_ok (self : TranslationAgent) (c : call) :
  history_ok self -> history_ok (step format_other model_invoke self c).
Proof.
  unfold history_ok. intros Hok.
  destruct c as [text sl tl d ts| |]; unfold step, after.
  - rewrite translate_text_unfold.
    destruct (Py.falsy (Py.strip text)) eqn:Hb; [exact Hok|].
    destruct (format _ _ _) as [p|e] eqn:Hf; [|exact Hok].
    assert (Hold : Forall (record_ok (model_calls self ++ [p]))
                     (translation_history self)).
    { eapply Forall_impl; [|exact Hok]. intros r. apply record_ok_more. }
    destruct (model_invoke _ _) as [resp|e]; cbn [snd]; [|exact Hold].
    cbn [recorded called model_calls translation_history].
    apply Forall_app. split; [exact Hold|].
    constructor; [|constructor].
    destruct (format_returns_prefixed _ _ _ Hf) as [content ->].
    split; [|split]; cbn [rec_source_text rec_prompt].
    + exact Hb.
    + apply in_or_app. right. now left.
    + apply startswith_app.
  - unfold get_translation_history.
    destruct (translation_history self) eqn:E; cbn [snd];
      rewrite E; exact Hok.
  - cbn [snd translation_history]. constructor.
Qed.

(** X5. Starting from a history of well-formed records (an empty one, for
    instance), every sequence of calls leaves a history in which each record
    has a source text that is not blank and a prompt that starts with the
    role prefix of the chat message and was sent to the model. *)
Theorem history_records_well_formed (calls : list call) :
  forall self,
    history_ok self ->
    history_ok (run format_other model_invoke self calls).
Proof.
  induction calls as [|c calls IH]; intros self Hok; [exact Hok|].
  change (run format_other model_invoke self (c :: calls))
    with (run format_other model_invoke
            (step format_other model_invoke self c) calls).
  apply IH, step_history_ok, Hok.
Qed.

End Calls.

Lemma history_records_well_formed_witness :
  history_ok
    (run strict_formatter echo_model init
       [TranslateText hello_world English zh_TW general professional;
        TranslateText blank_text English zh_TW general professional;
        ClearHistory;
        TranslateText hello_world zh_TW English general professional]).
Proof.
  apply (history_records_well_formed strict_formatter echo_model).
  constructor.
Defined.

(** ** What the instruction holds *)

Lemma contains_here (needle after : pystr) :
  Py.contains needle (needle ++ after) = true.
Proof. rewrite contains_unfold, startswith_app. reflexivity. Qed.

Lemma contains_skip (needle before hay : pystr) :
  Py.contains needle hay = true ->
  Py.contains needle (before ++ hay) = true.
Proof.
  intros H. induction before as [|c b IH]; [exact H|].
  simpl. rewrite IH. apply orb_true_r.
Qed.

Ltac find_piece :=
  repeat match goal with
         | |- Py.contains ?n (?n ++ _) = true => apply contains_here
         | |- Py.contains _ (_ ++ _) = true => apply contains_skip
         end.

Lemma five_point_contains
    (source_language target_language domain tone_style slot : pystr) :
  let instruction :=
    human_prefix
    ++ five_point source_language target_language domain tone_style slot in
  Py.contains slot instruction = true
  /\ Py.contains source_language instruction = true
  /\ Py.contains target_language instruction = true
  /\ Py.contains domain instruction = true
  /\ Py.contains tone_style instruction = true.
Proof.
  cbv zeta. unfold five_point.
  split; [|split; [|split; [|split]]]; find_piece.
Qed.

(** X6. With selectors free of braces, the prompt of every successful call
    contains the source text as it was given and each of the four selectors,
    literally. *)
Theorem instruction_contains_inputs
    (format_other : pystr -> pystr -> outcome pystr)
    (model_invoke : list pystr -> pystr -> outcome response)
    (source_text source_language target_language domain tone_style : pystr)
    (self : TranslationAgent) (r : Result) :
  brace_free source_language = true ->
  brace_free target_language = true ->
  brace_free domain = true ->
  brace_free tone_style = true ->
  fst (translate_text format_other model_invoke source_text source_language
         target_language domain tone_style self) = Returns r ->
  status r = status_success ->
  Py.contains source_text (prompt r) = true
  /\ Py.contains source_language (prompt r) = true
  /\ Py.contains target_language (prompt r) = true
  /\ Py.contains domain (prompt r) = true
  /\ Py.contains tone_style (prompt r) = true.
Proof.
  intros Hs Ht Hd Hto Hr Hst.
  pose proof (format_plain_selectors format_other source_language
                target_language domain tone_style source_text Hs Ht Hd Hto)
    as Hf.
  rewrite (success_prompt _ _ _ _ _ _ _ _ _ r Hf Hr Hst).
  apply five_point_contains.
Qed.

Lemma instruction_contains_inputs_witness :
  Py.contains (Py.lit "{Hello} ") (human_prefix
     ++ five_point English zh_TW general professional (Py.lit "{Hello} "))
  = true.
Proof.
  destruct (instruction_contains_inputs strict_formatter echo_model
              (Py.lit "{Hello} ") English zh_TW general professional init
              {| translation :=
                   human_prefix
                   ++ five_point English zh_TW general professional
                        (Py.lit "{Hello} ");
                 prompt :=
                   human_prefix
                   ++ five_point English zh_TW general professional
                        (Py.lit "{Hello} ");
                 status := status_success |}) as (H & _).
  - reflexivity.
  - reflexivity.
  - reflexivity.
  - reflexivity.
  - vm_compute. reflexivity.
  - reflexivity.
  - exact H.
Defined.

Lemma catalog_label_plain (label : pystr) :
  In label (UI.language_choices init)
  \/ In label (domains init) \/ In label (tone_styles init) ->
  brace_free label = true.
Proof.
  intros H.
  apply (proj1 (forallb_forall _ _) catalog_labels_plain).
  apply in_or_app. destruct H as [H | [H | H]].
  - left. exact H.
  - right. apply in_or_app. left. exact H.
  - right. apply in_or_app. right. exact H.
Qed.

(** X7. With the four selectors taken from the catalogs of a fresh agent (the
    choices of the dropdowns) and a text that is not blank, rendering cannot
    fail: the call does the same whatever the formatter does outside the
    fragment, the model is sent the instruction, and a result with status
    "error" comes from an exception of the model. *)
Theorem catalog_selection_renders
    (format_other : pystr -> pystr -> outcome pystr)
    (model_invoke : list pystr -> pystr -> outcome response)
    (source_text source_language target_language domain tone_style : pystr)
    (self : TranslationAgent) :
  In source_language (UI.language_choices init) ->
  In target_language (UI.language_choices init) ->
  In domain (domains init) ->
  In tone_style (tone_styles init) ->
  Py.falsy (Py.strip source_text) = false ->
  (forall other,
      translate_text other model_invoke source_text source_language
        target_language domain tone_style self
      = translate_text format_other model_invoke source_text source_language
          target_language domain tone_style self)
  /\ model_calls
       (snd (translate_text format_other model_invoke source_text
               source_language target_language domain tone_style self))
     = model_calls self
       ++ [human_prefix
           ++ five_point source_language target_language domain tone_style
                source_text]
  /\ (forall r,
        fst (translate_text format_other model_invoke source_text
               source_language target_language domain tone_style self)
        = Returns r ->
        status r = status_error ->
        exists e,
          model_invoke (model_calls self)
            (human_prefix
             ++ five_point source_language target_language domain tone_style
                  source_text) = Raises e
          /\ r = error_result e).
Proof.
  intros Hs Ht Hd Hto Hne.
  assert (Hf : forall other,
             format other
               (from_template
                  (complex_template source_language target_language domain
                     tone_style)) source_text
             = Returns
                 (human_prefix
                  ++ five_point source_language target_language domain
                       tone_style source_text)).
  { intros other. apply format_plain_selectors; apply catalog_label_plain;
      tauto. }
  split; [|split].
  - intros other. rewrite !translate_text_unfold, !Hf. reflexivity.
  - rewrite translate_text_unfold, Hne, Hf.
    destruct (model_invoke _ _); reflexivity.
  - intros r. rewrite translate_text_unfold, Hne, Hf.
    destruct (model_invoke _ _) as [resp|e]; cbn [fst];
      intros Hr Hst; injection Hr as <-.
    + discriminate Hst.
    + exists e. split; reflexivity.
Qed.

Lemma catalog_selection_renders_witness :
  model_calls
    (snd (translate_text strict_formatter failing_model hello_world
            (Py.lit "Deutsch") (Py.lit "日本語") (Py.lit "法律")
            (Py.lit "簡潔") init))
  = [human_prefix
     ++ five_point (Py.lit "Deutsch") (Py.lit "日本語") (Py.lit "法律")
          (Py.lit "簡潔") hello_world].
Proof.
  destruct (catalog_selection_renders strict_formatter failing_model
              hello_world (Py.lit "Deutsch") (Py.lit "日本語")
              (Py.lit "法律") (Py.lit "簡潔") init) as (_ & H & _).
  - vm_compute. tauto.
  - vm_compute. tauto.
  - vm_compute. tauto.
  - vm_compute. tauto.
  - reflexivity.
  - exact H.
Defined.

(** ** More on the history view *)

Lemma history_loop_extends (records : list TranslationRecord)
    (history_text : pystr) (i : nat) :
  exists rest, history_loop history_text i records = history_text ++ rest.
Proof. rewrite history_loop_concat. eexists. reflexivity. Qed.

(** X8. The view is the "no records" message exactly when the history is empty:
    a view of records starts with the header, which differs from it. *)
Theorem no_records_iff_empty (self : TranslationAgent) :
  fst (get_translation_history self) = Returns msg_no_history
  <-> translation_history self = [].
Proof.
  unfold get_translation_history. split.
  - destruct (translation_history self) as [|r h]; [reflexivity|].
    cbn [fst]. intros H. exfalso.
    destruct (history_loop_extends (Py.last_n 10 (r :: h)) history_header 1)
      as [rest Hrest].
    rewrite Hrest in H. injection H as H. vm_compute in H. discriminate H.
  - intros ->. reflexivity.
Qed.

Lemma last_n_app {A : Type} (n : nat) (older recent : list A) :
  n <= length recent ->
  Py.last_n n (older ++ recent) = Py.last_n n recent.
Proof.
  intros Hn. unfold Py.last_n.
  rewrite length_app, skipn_app.
  rewrite skipn_all2 by lia.
  replace (length older + length recent - n - length older)
    with (length recent - n) by lia.
  reflexivity.
Qed.

(** X9. Only the last ten records show: once a history has ten records or more,
    the view is the same whatever older records come before them. *)
Theorem view_ignores_older_records
    (self self' : TranslationAgent) (older recent : list TranslationRecord) :
  translation_history self = older ++ recent ->
  translation_history self' = recent ->
  10 <= length recent ->
  fst (get_translation_history self) = fst (get_translation_history self').
Proof.
  intros H H' Hlen. unfold get_translation_history. rewrite H, H'.
  destruct recent as [|r recent]; [simpl in Hlen; lia|].
  rewrite (last_n_app 10 older (r :: recent) Hlen).
  destruct (older ++ r :: recent) eqn:E; [|reflexivity].
  destruct older; discriminate E.
Qed.

Lemma view_ignores_older_records_witness :
  fst (get_translation_history (agent_with (map sample_record (seq 0 14))))
  = fst (get_translation_history (agent_with (map sample_record (seq 4 10)))).
Proof.
  apply (view_ignores_older_records
           (agent_with (map sample_record (seq 0 14)))
           (agent_with (map sample_record (seq 4 10)))
           (map sample_record (seq 0 4)) (map sample_record (seq 4 10))).
  - reflexivity.
  - reflexivity.
  - simpl. lia.
Defined.

(** X10. A text shown in the view keeps its first [n] characters and is never
    longer than [n + 3]: it is the text itself up to [n] characters, and [n]
    characters and the three dots beyond. *)
Theorem shown_length (n : nat) (s : pystr) :
  length (shown n s) = (if n <? length s then n + 3 else length s)
  /\ length (shown n s) <= n + 3
  /\ firstn n (shown n s) = firstn n s.
Proof.
  unfold shown, Py.slice_to.
  destruct (Nat.ltb_spec n (length s)) as [Hlt|Hge].
  - rewrite length_app, length_firstn.
    replace (Nat.min n (length s)) with n by lia.
    change (length ellipsis) with 3.
    split; [reflexivity|]. split; [lia|].
    rewrite firstn_app, length_firstn.
    replace (n - Nat.min n (length s)) with 0 by lia.
    rewrite firstn_firstn, Nat.min_id. simpl. apply app_nil_r.
  - rewrite app_nil_r. repeat rewrite (firstn_all2 s) by lia.
    split; [reflexivity|]. split; [lia|reflexivity].
Qed.

(** * The interface *)

Section Interface.

Variable format_other : pystr -> pystr -> outcome pystr.
Variable model_invoke : list pystr -> pystr -> outcome response.

Lemma perform_translation_agent
    (source_text source_lang target_lang domain tone_style : pystr)
    (self : TranslationAgent) :
  snd (UI.perform_translation format_other model_invoke source_text
         source_lang target_lang domain tone_style self)
  = snd (translate_text format_other model_invoke source_text source_lang
           target_lang domain tone_style self).
Proof.
  unfold UI.perform_translation, bind, ret.
  destruct (translate_text _ _ _ _ _ _ _ self) as [[r|e] a]; reflexivity.
Qed.

(** X11. [perform_translation] never raises; it returns the translation and the
    prompt of [translate_text], and the prompt it returns is empty exactly
    when the call appended nothing to the history. *)
Theorem perform_translation_outputs
    (source_text source_lang target_lang domain tone_style : pystr)
    (self : TranslationAgent) :
  exists t p,
    fst (UI.perform_translation format_other model_invoke source_text
           source_lang target_lang domain tone_style self) = Returns (t, p)
    /\ (exists r,
          fst (translate_text format_other model_invoke source_text
                 source_lang target_lang domain tone_style self) = Returns r
          /\ t = translation r /\ p = prompt r)
    /\ (p = []
        <-> translation_history
              (snd (UI.perform_translation format_other model_invoke
                      source_text source_lang target_lang domain tone_style
                      self))
            = translation_history self).
Proof.
  rewrite perform_translation_agent.
  unfold UI.perform_translation, bind, ret.
  rewrite translate_text_unfold.
  destruct (Py.falsy _).
  { do 2 eexists. split; [reflexivity|]. split.
    - eexists. repeat split.
    - cbn. tauto. }
  destruct (format _ _ _) as [q|e] eqn:Hf.
  - destruct (model_invoke _ _) as [resp|e].
    + do 2 eexists. split; [reflexivity|]. split.
      * eexists. repeat split.
      * cbn [prompt snd recorded called translation_history].
        destruct (format_returns_prefixed _ _ _ _ Hf) as [content ->].
        split; [discriminate|].
        intros H. apply (f_equal (@length _)) in H.
        rewrite length_app in H. simpl in H. lia.
    + do 2 eexists. split; [reflexivity|]. split.
      * eexists. repeat split.
      * cbn. tauto.
  - do 2 eexists. split; [reflexivity|]. split.
    + eexists. repeat split.
    + cbn. tauto.
Qed.

Lemma click_agent {A : Type} (fn : M A) (write : A -> UI.state -> UI.state)
    (st : UI.state) :
  (forall out st', UI.agent (write out st') = UI.agent st') ->
  UI.agent (UI.click fn write st) = snd (fn (UI.agent st)).
Proof.
  intros Hw. unfold UI.click.
  destruct (fn (UI.agent st)) as [[out|e] a]; [rewrite Hw|]; reflexivity.
Qed.

(** The agent after an event is the agent after the call the event makes:
    [translate_text] on the values of the input widgets, one of the two
    history methods, or no call at all. *)
Lemma on_event_agent (st : UI.state) (ev : UI.event) :
  UI.agent (UI.on_event format_other model_invoke st ev)
  = run format_other model_invoke (UI.agent st)
      (match ev with
       | UI.TranslateClick =>
           [TranslateText (UI.source_text st) (UI.source_lang st)
              (UI.target_lang st) (UI.domain st) (UI.tone_style st)]
       | UI.HistoryClick => [GetTranslationHistory]
       | UI.ClearHistoryClick => [ClearHistory]
       | _ => []
       end).
Proof.
  destruct ev; cbn [UI.on_event run fold_left step after]; try reflexivity;
    rewrite click_agent by reflexivity;
    first [apply perform_translation_agent | reflexivity].
Qed.

Lemma events_run_calls (evs : list UI.event) :
  forall st,
  exists calls,
    UI.agent (UI.run_events format_other model_invoke st evs)
    = run format_other model_invoke (UI.agent st) calls
    /\ length calls <= length evs
    /\ existsb is_clear calls
       = existsb UI.is_clear_history_click evs.
Proof.
  induction evs as [|ev evs IH]; intros st.
  - exists []. repeat split. simpl. lia.
  - destruct (IH (UI.on_event format_other model_invoke st ev))
      as (calls & H & L & C).
    change (UI.run_events format_other model_invoke st (ev :: evs))
      with (UI.run_events format_other model_invoke
              (UI.on_event format_other model_invoke st ev) evs).
    rewrite H, on_event_agent. unfold run. rewrite <- fold_left_app.
    eexists. split; [reflexivity|].
    rewrite length_app, existsb_app, C.
    destruct ev; simpl; split; solve [lia | reflexivity].
Qed.

(** X12. Whatever the user does, the agent goes through a sequence of calls of
    its three methods, at most one per event, and with a [clear_history]
    exactly if the clear-history button was clicked: what holds of sequences
    of calls holds of the agent behind the interface. *)
Theorem events_are_calls (evs : list UI.event) (st : UI.state) :
  exists calls,
    UI.agent (UI.run_events format_other model_invoke st evs)
    = run format_other model_invoke (UI.agent st) calls
    /\ length calls <= length evs
    /\ existsb is_clear calls
       = existsb UI.is_clear_history_click evs.
Proof.
  destruct (events_run_calls evs st) as (calls & H & L & C).
  exists calls. split; [exact H|]. split; [exact L | exact C].
Qed.


Lemma click_history_output {A : Type} (fn : M A)
    (write : A -> UI.state -> UI.state) (st : UI.state) :
  (forall out st', UI.history_output (write out st')
                   = UI.history_output st') ->
  UI.history_output (UI.click fn write st) = UI.history_output st.
Proof.
  intros Hw. unfold UI.click.
  destruct (fn (UI.agent st)) as [[out|e] a]; [rewrite Hw|]; reflexivity.
Qed.

(** X14. The history panel changes only on a click of one of the two history
    buttons: translating, editing and clearing the inputs leave it showing
    what it showed, however many records were appended meanwhile. *)
Theorem history_panel_not_refreshed (evs : list UI.event) :
  forall st,
    existsb UI.is_history_click evs = false ->
    UI.history_output (UI.run_events format_other model_invoke st evs)
    = UI.history_output st.
Proof.
  induction evs as [|ev evs IH]; intros st Hn; [reflexivity|].
  simpl in Hn. apply orb_false_iff in Hn. destruct Hn as [Hev Hevs].
  change (UI.run_events format_other model_invoke st (ev :: evs))
    with (UI.run_events format_other model_invoke
            (UI.on_event format_other model_invoke st ev) evs).
  rewrite (IH _ Hevs).
  destruct ev; try discriminate Hev; try reflexivity.
  cbn [UI.on_event]. now rewrite click_history_output.
Qed.

Lemma on_event_empty_history (st : UI.state) (ev : UI.event) :
  UI.is_translate_click ev = false ->
  translation_history (UI.agent st) = [] ->
  translation_history
    (UI.agent (UI.on_event format_other model_invoke st ev)) = [].
Proof.
  intros Hev Hempty. rewrite on_event_agent.
  destruct ev; try discriminate Hev; cbn [run fold_left step after];
    try exact Hempty.
  - unfold after, get_translation_history. rewrite Hempty. exact Hempty.
  - reflexivity.
Qed.

Lemma run_events_empty_history (evs : list UI.event) :
  forall st,
    existsb UI.is_translate_click evs = false ->
    translation_history (UI.agent st) = [] ->
    translation_history
      (UI.agent (UI.run_events format_other model_invoke st evs)) = [].
Proof.
  induction evs as [|ev evs IH]; intros st Hn Hempty; [exact Hempty|].
  simpl in Hn. apply orb_false_iff in Hn. destruct Hn as [Hev Hevs].
  change (UI.run_events format_other model_invoke st (ev :: evs))
    with (UI.run_events format_other model_invoke
            (UI.on_event format_other model_invoke st ev) evs).
  apply IH; [exact Hevs|]. now apply on_event_empty_history.
Qed.

Lemma history_click_on_empty (st : UI.state) :
  translation_history (UI.agent st) = [] ->
  UI.history_output
    (UI.on_event format_other model_invoke st UI.HistoryClick)
  = msg_no_history.
Proof.
  intros Hempty. cbn [UI.on_event].
  unfold UI.click, UI.show_history, get_translation_history.
  rewrite Hempty. reflexivity.
Qed.

(** X15. After a click on the clear-history button and until the next
    translation, a click on the view-history button shows the "no records"
    message. *)
Theorem cleared_history_shows_no_records
    (evs : list UI.event) (st : UI.state) :
  existsb UI.is_translate_click evs = false ->
  UI.history_output
    (UI.run_events format_other model_invoke st
       (UI.ClearHistoryClick :: evs ++ [UI.HistoryClick]))
  = msg_no_history.
Proof.
  intros Hn.
  change (UI.run_events format_other model_invoke st
            (UI.ClearHistoryClick :: evs ++ [UI.HistoryClick]))
    with (UI.run_events format_other model_invoke
            (UI.on_event format_other model_invoke st UI.ClearHistoryClick)
            (evs ++ [UI.HistoryClick])).
  unfold UI.run_events. rewrite fold_left_app.
  apply history_click_on_empty.
  apply (run_events_empty_history evs _ Hn).
  rewrite on_event_agent. reflexivity.
Qed.

Lemma on_event_source_text (st : UI.state) (ev : UI.event) :
  UI.is_edit ev = false ->
  UI.source_text st = [] ->
  UI.source_text (UI.on_event format_other model_invoke st ev) = [].
Proof.
  intros Hev Hs. destruct ev; try discriminate Hev; cbn [UI.on_event];
    try exact Hs; try reflexivity;
    unfold UI.click;
    match goal with
    | |- context [match ?x with _ => _ end] =>
        destruct x as [[out|e] a]; exact Hs
    end.
Qed.

(** X16. After a click on the clear button and until the user types a text, a
    click on the translate button shows the placeholder with an empty
    prompt, and changes nothing else: the agent is as it was and the model
    is sent nothing. *)
Theorem translate_after_clear_is_rejected (evs : list UI.event) :
  forall st,
    existsb UI.is_edit evs = false ->
    UI.on_event format_other model_invoke
      (UI.run_events format_other model_invoke st (UI.ClearClick :: evs))
      UI.TranslateClick
    = UI.set_outputs msg_empty_input []
        (UI.run_events format_other model_invoke st (UI.ClearClick :: evs)).
Proof.
  intros st Hn.
  assert (Hs : UI.source_text
                 (UI.run_events format_other model_invoke st
                    (UI.ClearClick :: evs)) = []).
  { change (UI.run_events format_other model_invoke st
              (UI.ClearClick :: evs))
      with (UI.run_events format_other model_invoke
              (UI.on_event format_other model_invoke st UI.ClearClick) evs).
    assert (H0 : UI.source_text
                   (UI.on_event format_other model_invoke st UI.ClearClick)
                 = []) by reflexivity.
    revert H0 Hn.
    generalize (UI.on_event format_other model_invoke st UI.ClearClick).
    induction evs as [|ev evs IH]; intros s H0 Hn; [exact H0|].
    simpl in Hn. apply orb_false_iff in Hn. destruct Hn as [Hev Hevs].
    change (UI.run_events format_other model_invoke s (ev :: evs))
      with (UI.run_events format_other model_invoke
              (UI.on_event format_other model_invoke s ev) evs).
    apply IH; [|exact Hevs]. now apply on_event_source_text. }
  cbn [UI.on_event]. rewrite Hs.
  unfold UI.click, UI.perform_translation, bind, ret.
  rewrite translate_text_unfold. cbn.
  destruct (UI.run_events _ _ _ _). reflexivity.
Qed.

End Interface.


Lemma history_panel_not_refreshed_witness :
  UI.history_output
    (UI.run_events strict_formatter echo_model sample_state
       [UI.TranslateClick; UI.EditText hello_world; UI.TranslateClick;
        UI.ClearClick])
  = msg_no_history.
Proof.
  apply (history_panel_not_refreshed strict_formatter echo_model
           [UI.TranslateClick; UI.EditText hello_world; UI.TranslateClick;
            UI.ClearClick] sample_state).
  reflexivity.
Defined.

Lemma cleared_history_shows_no_records_witness :
  UI.history_output
    (UI.run_events strict_formatter echo_model sample_state
       (UI.ClearHistoryClick
          :: [UI.ClearClick; UI.EditText hello_world] ++ [UI.HistoryClick]))
  = msg_no_history.
Proof.
  apply (cleared_history_shows_no_records strict_formatter echo_model
           [UI.ClearClick; UI.EditText hello_world] sample_state).
  reflexivity.
Defined.

Lemma translate_after_clear_is_rejected_witness :
  UI.translation_output
    (UI.on_event strict_formatter echo_model
       (UI.run_events strict_formatter echo_model sample_state
          [UI.ClearClick; UI.Select zh_TW English general professional])
       UI.TranslateClick)
  = msg_empty_input.
Proof.
  rewrite (translate_after_clear_is_rejected strict_formatter echo_model
             [UI.Select zh_TW English general professional] sample_state).
  - reflexivity.
  - reflexivity.
Defined.
